(** * convert_bge_to_onnx.py: the conversion pipeline and its contract

  The script is a straight-line orchestration of external libraries
  (pathlib, transformers, torch.onnx, onnxruntime.quantization).  It is
  embedded here as a program in a small state-and-exception monad: every
  call that leaves the script is recorded, with the very arguments the
  source passes, and answered by an arbitrary [world]; [Path.mkdir] is
  answered by a model of the file system. *)

From Stdlib Require Import ZArith Ascii String.
From stdpp Require Import base option list strings gmap.

Local Open Scope Z_scope.

(** ** pathlib

  [PurePosixPath] restricted to what the script uses: construction from a
  string, [/], [str], [.name], [.parent], [.stem] and [.suffix].  POSIX
  flavour (separator [/]); the double-slash root and drives are left out. *)
Module pathlib.

Record Path : Type := mkPath { anchored : bool; parts : list string }.

#[export] Instance Path_eq_dec : EqDecision Path.
Proof. solve_decision. Defined.

Definition is_slash (c : ascii) : bool := Ascii.eqb c "/"%char.

(** [s.split("/")] *)
Fixpoint split_slash (s : string) : list string :=
  match s with
  | EmptyString => [EmptyString]
  | String c s' =>
      if is_slash c then EmptyString :: split_slash s'
      else match split_slash s' with
           | [] => [String c EmptyString]
           | seg :: rest => String c seg :: rest
           end
  end.

Definition keep_segment (seg : string) : bool :=
  negb (String.eqb seg "" || String.eqb seg ".").

Definition starts_with_slash (s : string) : bool :=
  match s with
  | String c _ => is_slash c
  | EmptyString => false
  end.

(** [Path(s)] *)
Definition of_string (s : string) : Path :=
  {| anchored := starts_with_slash s;
     parts := List.filter keep_segment (split_slash s) |}.

(** [p / s]: an absolute right operand replaces the left one. *)
Definition truediv (p : Path) (s : string) : Path :=
  let q := of_string s in
  if anchored q then q
  else {| anchored := anchored p; parts := parts p ++ parts q |}.

Fixpoint join_slash (l : list string) : string :=
  match l with
  | [] => ""
  | [seg] => seg
  | seg :: rest => seg +:+ "/" +:+ join_slash rest
  end.

(** [str(p)] *)
Definition str (p : Path) : string :=
  if anchored p then "/" +:+ join_slash (parts p)
  else match parts p with
       | [] => "."
       | _ => join_slash (parts p)
       end.

(** [p.name] *)
Definition name (p : Path) : string := List.last (parts p) "".

(** [p.parent] *)
Definition parent (p : Path) : Path :=
  {| anchored := anchored p; parts := List.removelast (parts p) |}.

(** The split of a name at its last dot: [(name[:i], name[i:])] for
    [i = name.rfind(".")]. *)
Fixpoint rsplit_dot (s : string) : option (string * string) :=
  match s with
  | EmptyString => None
  | String c s' =>
      match rsplit_dot s' with
      | Some (a, b) => Some (String c a, b)
      | None => if Ascii.eqb c "."%char then Some (EmptyString, s) else None
      end
  end.

(** [p.suffix]: empty unless [0 < i < len(name) - 1]. *)
Definition suffix (p : Path) : string :=
  match rsplit_dot (name p) with
  | Some (a, b) =>
      if String.eqb a "" || String.eqb b "." then "" else b
  | None => ""
  end.

(** [p.stem] *)
Definition stem (p : Path) : string :=
  match rsplit_dot (name p) with
  | Some (a, b) =>
      if String.eqb a "" || String.eqb b "." then name p else a
  | None => name p
  end.

End pathlib.
Export pathlib.

Notation "p // s" := (truediv p s) (at level 40, left associativity).

(** ** Values, calls and exceptions *)

(** [onnxruntime.quantization.QuantType], the members for 8-bit weights. *)
Inductive QuantType : Type := QInt8 | QUInt8.

(** Modelled from the spec: the encoding of a graph's weights.  The
    libraries that write graphs are not part of this repository; the spec
    has the export write floating-point weights and the quantizer re-encode
    them as unsigned 8-bit integers. *)
Inductive dtype : Type := Float32 | Int8 | UInt8.

#[export] Instance dtype_eq_dec : EqDecision dtype.
Proof. solve_decision. Defined.

(** Modelled from the spec: the weight encoding a [QuantType] asks for. *)
Definition weight_dtype (q : QuantType) : dtype :=
  match q with QInt8 => Int8 | QUInt8 => UInt8 end.

(** Modelled from the spec: a serialized computation graph, as far as the
    spec describes one: named inputs and outputs, a format version, and the
    encoding of its weights. *)
Record graph : Type := mkGraph {
  graph_inputs : list string;
  graph_outputs : list string;
  graph_opset : Z;
  graph_weights : dtype
}.

#[export] Instance graph_eq_dec : EqDecision graph.
Proof. solve_decision. Defined.

(** Modelled from the spec: the quantized graph keeps the input and output
    contract of the graph it is derived from and differs in the encoding of
    its weights. *)
Definition requantize (q : QuantType) (g : graph) : graph :=
  {| graph_inputs := graph_inputs g;
     graph_outputs := graph_outputs g;
     graph_opset := graph_opset g;
     graph_weights := weight_dtype q |}.

(** The Python values the script builds as arguments, and whatever the
    libraries hand back ([VObj]: an object the script only passes on). *)
#[warnings="-register-all"]
Inductive value : Type :=
| VNone
| VBool (b : bool)
| VInt (n : Z)
| VStr (s : string)
| VPath (p : Path)
| VQuantType (q : QuantType)
| VObj (h : positive)
| VTuple (l : list value)
| VList (l : list value)
| VDict (d : list (value * value)).

(** One call that leaves the script: [callee] as the source spells it,
    [self] for a method call, then positional and keyword arguments in
    source order. *)
Record call : Type := mkCall {
  callee : string;
  self : option value;
  args : list value;
  kwargs : list (string * value)
}.

(** A raised exception: its class name, whether the class derives from
    [Exception] (as opposed to [BaseException] only, like
    [KeyboardInterrupt] and [SystemExit]), and [str(e)]. *)
Record exn : Type := mkExn {
  exn_type : string;
  is_Exception : bool;
  exn_str : string
}.

Definition FileExistsError (p : Path) : exn :=
  mkExn "FileExistsError" true ("[Errno 17] File exists: '" +:+ str p +:+ "'").
Definition FileNotFoundError (p : Path) : exn :=
  mkExn "FileNotFoundError" true
        ("[Errno 2] No such file or directory: '" +:+ str p +:+ "'").
Definition PermissionError (p : Path) : exn :=
  mkExn "PermissionError" true ("[Errno 13] Permission denied: '" +:+ str p +:+ "'").

(** Keyword and dictionary lookup. *)
Fixpoint kwarg (k : string) (kws : list (string * value)) : option value :=
  match kws with
  | [] => None
  | (k', v) :: rest => if String.eqb k k' then Some v else kwarg k rest
  end.

Fixpoint dict_get_str (k : string) (d : list (value * value)) : option value :=
  match d with
  | [] => None
  | (VStr k', v) :: rest => if String.eqb k k' then Some v else dict_get_str k rest
  | _ :: rest => dict_get_str k rest
  end.

Definition dict_keys (v : value) : list value :=
  match v with
  | VDict d => d.*1
  | _ => []
  end.

(** ** The file system under [Path.mkdir]

    Entries are keyed by path components; the working directory (key [[]])
    and the root always exist.  [writable] says whether a directory lets
    this process create entries in it.  [File] is a file whose content is
    not looked into, [GraphFile] one that holds a serialized graph. *)
Inductive node : Type :=
| Dir
| File
| GraphFile (g : graph).

#[export] Instance node_eq_dec : EqDecision node.
Proof. solve_decision. Defined.

Record filesystem : Type := mkFs {
  entries : gmap (list string) node;
  writable : list string → bool
}.

Definition key (p : Path) : list string :=
  if anchored p then "/" :: parts p else parts p.

Definition is_root (k : list string) : bool :=
  match k with
  | [] | ["/"] => true
  | _ => false
  end.

Definition fs_exists (fs : filesystem) (k : list string) : bool :=
  is_root k || bool_decide (is_Some (entries fs !! k)).

Definition fs_is_dir (fs : filesystem) (k : list string) : bool :=
  is_root k || bool_decide (entries fs !! k = Some Dir).

(** [os.mkdir(p)] *)
Definition os_mkdir (fs : filesystem) (p : Path) : filesystem + exn :=
  let k := key p in
  let up := key (parent p) in
  if negb (fs_is_dir fs up) then inr (FileNotFoundError p)
  else if fs_exists fs k then inr (FileExistsError p)
  else if negb (writable fs up) then inr (PermissionError p)
  else inl {| entries := <[k := Dir]> (entries fs); writable := writable fs |}.

(** [Path.mkdir(self, parents=False, exist_ok=...)]: a missing parent is
    re-raised; any other [OSError] is swallowed when [exist_ok] holds and
    the path is a directory. *)
Definition Path_mkdir (fs : filesystem) (p : Path) (exist_ok : bool)
  : filesystem + exn :=
  match os_mkdir fs p with
  | inl fs' => inl fs'
  | inr e =>
      if String.eqb (exn_type e) "FileNotFoundError" then inr e
      else if exist_ok && fs_is_dir fs (key p) then inl fs
      else inr e
  end.

(** ** The world and the state of a run *)

(** What the script's surroundings are: command line, environment, the
    disk, and the behaviour of the libraries (each call is answered from
    the disk and the calls made so far, with a new disk and a value or an
    exception). *)
Record world : Type := mkWorld {
  argv : list string;
  environ : gmap string string;
  disk : filesystem;
  lib : filesystem → list call → call → filesystem * (value + exn)
}.

(** What a run leaves behind, in the order it happened: calls with what
    they returned or raised, lines on standard output, tracebacks on
    standard error. *)
Inductive event : Type :=
| Called (c : call) (r : value + exn)
| Stdout (line : string)
| Stderr_traceback (e : exn).

Record state : Type := mkState {
  fs : filesystem;
  log : list event;
  caught : list exn
}.

Definition init (w : world) : state :=
  {| fs := disk w; log := []; caught := [] |}.

Definition calls_of (l : list event) : list call :=
  omap (λ ev, match ev with Called c _ => Some c | _ => None end) l.

Definition lines_of (l : list event) : list string :=
  omap (λ ev, match ev with Stdout line => Some line | _ => None end) l.

Definition tracebacks_of (l : list event) : list exn :=
  omap (λ ev, match ev with Stderr_traceback e => Some e | _ => None end) l.

(** What the script itself did: the calls it made, the lines it printed
    and the tracebacks it printed.  What the libraries write to the
    standard streams on their own is not part of the log. *)
Definition history (s : state) : list call := calls_of (log s).
Definition stdout (s : state) : list string := lines_of (log s).
Definition stderr (s : state) : list exn := tracebacks_of (log s).

Definition emit (ev : event) (s : state) : state :=
  {| fs := fs s; log := log s ++ [ev]; caught := caught s |}.

(** ** The monad of the script: reader of the world, state, exceptions *)
Definition M (A : Type) : Type := world → state → state * (A + exn).

Definition ret {A} (a : A) : M A := λ _ s, (s, inl a).

Definition bind {A B} (m : M A) (k : A → M B) : M B :=
  λ w s, match m w s with
         | (s', inl a) => k a w s'
         | (s', inr e) => (s', inr e)
         end.

Notation "x <- m ;; k" := (bind m (λ x, k))
  (at level 100, m at next level, k at level 200, right associativity).
Notation "m ;;; k" := (bind m (λ _, k))
  (at level 100, k at level 200, right associativity).

(** [print(s)]: one line on standard output.  Writing to the standard
    streams is taken not to fail. *)
Definition print (line : string) : M unit :=
  λ _ s, (emit (Stdout line) s, inl tt).

(** [traceback.print_exc()] in the handler of [e]. *)
Definition print_exc (e : exn) : M unit :=
  λ _ s, (emit (Stderr_traceback e) s, inl tt).

(** A library call: recorded, then answered by the world. *)
Definition invoke (c : call) : M value :=
  λ w s,
    let '(fs', r) := lib w (fs s) (history s) c in
    ({| fs := fs'; log := log s ++ [Called c r]; caught := caught s |}, r).

Definition mkdir_call (p : Path) (exist_ok : bool) : call :=
  mkCall "mkdir" (Some (VPath p)) [] [("exist_ok", VBool exist_ok)].

(** [p.mkdir(exist_ok=b)]: recorded, then answered by the file system. *)
Definition mkdir (p : Path) (exist_ok : bool) : M unit :=
  λ _ s,
    match Path_mkdir (fs s) p exist_ok with
    | inl fs' =>
        ({| fs := fs'; log := log s ++ [Called (mkdir_call p exist_ok) (inl VNone)];
            caught := caught s |}, inl tt)
    | inr e => (emit (Called (mkdir_call p exist_ok) (inr e)) s, inr e)
    end.

(** [try: body / except Exception as e: handler e] *)
Definition try_except_Exception {A} (body : M A) (handler : exn → M A) : M A :=
  λ w s, match body w s with
         | (s', inl a) => (s', inl a)
         | (s', inr e) =>
             if is_Exception e
             then handler e w {| fs := fs s'; log := log s';
                                 caught := caught s' ++ [e] |}
             else (s', inr e)
         end.

(** ** The script *)

(** The newline escape of the source's string literals. *)
Definition nl : string := String "010"%char EmptyString.

Definition from_pretrained (cls model_id : string) : call :=
  mkCall (cls +:+ ".from_pretrained") None [VStr model_id] [].

Definition save_pretrained (obj : value) (output_dir : Path) : call :=
  mkCall "save_pretrained" (Some obj) [VPath output_dir] [].

Definition eval (model : value) : call := mkCall "eval" (Some model) [] [].

Definition tokenize (tokenizer : value) (text : string) : call :=
  mkCall "__call__" (Some tokenizer) [VStr text]
         [("return_tensors", VStr "pt"); ("padding", VBool true);
          ("truncation", VBool true); ("max_length", VInt 512)].

Definition getitem (obj : value) (k : string) : call :=
  mkCall "__getitem__" (Some obj) [VStr k] [].

Definition axes : value :=
  VDict [(VInt 0, VStr "batch_size"); (VInt 1, VStr "sequence_length")].

Definition torch_onnx_export (model ids mask : value) (onnx_path : Path) : call :=
  mkCall "torch.onnx.export" None
         [model; VTuple [ids; mask]; VStr (str onnx_path)]
         [("input_names", VList [VStr "input_ids"; VStr "attention_mask"]);
          ("output_names", VList [VStr "last_hidden_state"]);
          ("dynamic_axes",
           VDict [(VStr "input_ids", axes);
                  (VStr "attention_mask", axes);
                  (VStr "last_hidden_state", axes)]);
          ("opset_version", VInt 14);
          ("do_constant_folding", VBool true)].

Definition quantize_dynamic (onnx_path quantized_path : Path) : call :=
  mkCall "quantize_dynamic" None
         [VStr (str onnx_path); VStr (str quantized_path)]
         [("weight_type", VQuantType QUInt8)].

Definition model_name : string := "BAAI/bge-small-en-v1.5".
Definition output_dir : Path := of_string "bge-small-onnx".
Definition dummy_text : string := "This is a sample sentence for conversion.".
Definition onnx_path : Path := output_dir // "model.onnx".
Definition quantized_path : Path := output_dir // "bge-small-en-v1.5-quantized.onnx".

Definition download_and_convert : M Path :=
  mkdir output_dir true ;;;

  print ("Downloading " +:+ model_name +:+ " from Hugging Face...") ;;;
  tokenizer <- invoke (from_pretrained "AutoTokenizer" model_name) ;;
  model <- invoke (from_pretrained "AutoModel" model_name) ;;

  print "Saving model and tokenizer locally..." ;;;
  invoke (save_pretrained tokenizer output_dir) ;;;
  invoke (save_pretrained model output_dir) ;;;

  print "Converting to ONNX format..." ;;;
  invoke (eval model) ;;;

  inputs <- invoke (tokenize tokenizer dummy_text) ;;

  input_ids <- invoke (getitem inputs "input_ids") ;;
  attention_mask <- invoke (getitem inputs "attention_mask") ;;
  invoke (torch_onnx_export model input_ids attention_mask onnx_path) ;;;

  print ("Model exported to " +:+ str onnx_path) ;;;

  print "Quantizing model for mobile deployment..." ;;;
  invoke (quantize_dynamic onnx_path quantized_path) ;;;

  print ("Quantized model saved to " +:+ str quantized_path) ;;;
  print (nl +:+ "Model files:") ;;;
  print ("  - Full precision: " +:+ str onnx_path) ;;;
  print ("  - Quantized: " +:+ str quantized_path) ;;;
  print (nl +:+ "Recommended for Android: " +:+ name quantized_path) ;;;
  print (nl +:+ "Next step: Copy " +:+ name quantized_path
         +:+ " to app/src/main/assets/bge-small-en-v1.5.onnx") ;;;

  ret quantized_path.


Definition success_banner : string := nl +:+ "✅ Conversion completed successfully!".

Definition error_message (e : exn) : string :=
  nl +:+ "❌ Error during conversion: " +:+ exn_str e.

(** The [if __name__ == "__main__":] block. *)
Definition main : M unit :=
  try_except_Exception
    (model_path <- download_and_convert ;;
     print success_banner)
    (λ e, print (error_message e) ;;;
          print_exc e).

(** ** The interpreter around the script

    A script that runs to its end leaves through the normal exit (status
    0).  An exception nobody caught reaches the interpreter, which leaves
    through its failure exit. *)
Inductive termination : Type :=
| ExitNormal
| ExitUncaught (e : exn).

Record outcome : Type := mkOutcome {
  final : state;
  exit : termination
}.

(** The exit status of a script that ran to its end; an uncaught exception
    leaves the choice to the interpreter. *)
Definition exit_status (t : termination) : option Z :=
  match t with
  | ExitNormal => Some 0
  | ExitUncaught _ => None
  end.

Definition failure_exit (t : termination) : bool :=
  match t with
  | ExitNormal => false
  | ExitUncaught _ => true
  end.

Definition run_script (w : world) : outcome :=
  match main w (init w) with
  | (s, inl _) => {| final := s; exit := ExitNormal |}
  | (s, inr e) => {| final := s; exit := ExitUncaught e |}
  end.

(** [download_and_convert()] called on its own, from the initial state. *)
Definition run_pipeline (w : world) : state * (Path + exn) :=
  download_and_convert w (init w).

(** ** What a run looks like from outside *)

(** The callees of a complete run, in order. *)
Definition stage_callees : list string :=
  ["mkdir";
   "AutoTokenizer.from_pretrained"; "AutoModel.from_pretrained";
   "save_pretrained"; "save_pretrained";
   "eval"; "__call__"; "__getitem__"; "__getitem__"; "torch.onnx.export";
   "quantize_dynamic"].

(** What the ten library calls of a complete run returned. *)
Record returns : Type := mkReturns {
  tokenizer : value;
  model : value;
  tokenizer_saved : value;
  model_saved : value;
  model_eval : value;
  inputs : value;
  input_ids : value;
  attention_mask : value;
  exported : value;
  quantized : value
}.

(** The log of a complete run of [download_and_convert]. *)
Definition stage_log (r : returns) : list event :=
  [Called (mkdir_call output_dir true) (inl VNone);
   Stdout "Downloading BAAI/bge-small-en-v1.5 from Hugging Face...";
   Called (from_pretrained "AutoTokenizer" model_name) (inl (tokenizer r));
   Called (from_pretrained "AutoModel" model_name) (inl (model r));
   Stdout "Saving model and tokenizer locally...";
   Called (save_pretrained (tokenizer r) output_dir) (inl (tokenizer_saved r));
   Called (save_pretrained (model r) output_dir) (inl (model_saved r));
   Stdout "Converting to ONNX format...";
   Called (eval (model r)) (inl (model_eval r));
   Called (tokenize (tokenizer r) dummy_text) (inl (inputs r));
   Called (getitem (inputs r) "input_ids") (inl (input_ids r));
   Called (getitem (inputs r) "attention_mask") (inl (attention_mask r));
   Called (torch_onnx_export (model r) (input_ids r) (attention_mask r) onnx_path)
          (inl (exported r));
   Stdout "Model exported to bge-small-onnx/model.onnx";
   Stdout "Quantizing model for mobile deployment...";
   Called (quantize_dynamic onnx_path quantized_path) (inl (quantized r));
   Stdout "Quantized model saved to bge-small-onnx/bge-small-en-v1.5-quantized.onnx";
   Stdout (nl +:+ "Model files:");
   Stdout "  - Full precision: bge-small-onnx/model.onnx";
   Stdout "  - Quantized: bge-small-onnx/bge-small-en-v1.5-quantized.onnx";
   Stdout (nl +:+ "Recommended for Android: bge-small-en-v1.5-quantized.onnx");
   Stdout (nl +:+ "Next step: Copy bge-small-en-v1.5-quantized.onnx to app/src/main/assets/bge-small-en-v1.5.onnx")].

(** The events that follow the first call to [f] in a log. *)
Fixpoint after_call (f : string) (l : list event) : list event :=
  match l with
  | [] => []
  | Called c _ :: rest =>
      if String.eqb (callee c) f then rest else after_call f rest
  | _ :: rest => after_call f rest
  end.

(** The part of a model identifier after its last slash. *)
Definition repo_name (model_id : string) : string :=
  List.last (split_slash model_id) "".

(** The tensors the export call names. *)
Definition tensor_names : list string :=
  ["input_ids"; "attention_mask"; "last_hidden_state"].

(** The axes a [dynamic_axes] entry declares. *)
Definition declared_axes (v : value) : gset Z :=
  list_to_set (omap (λ k, match k with VInt n => Some n | _ => None end)
                    (dict_keys v)).

(** The calls to [f] among [h]. *)
Definition calls_to (f : string) (h : list call) : list call :=
  List.filter (λ c, String.eqb (callee c) f) h.

(** ** What the libraries are taken to do

    The script hands the reading and writing of graphs to torch and
    onnxruntime, and the writing of the artifacts to transformers.  Their
    code is not part of this repository; what a world has to satisfy to
    behave like them is stated here, from the spec's description. *)

Definition strings_of (v : value) : list string :=
  match v with
  | VList l => omap (λ x, match x with VStr s => Some s | _ => None end) l
  | _ => []
  end.

Definition names_kwarg (k : string) (c : call) : list string :=
  match kwarg k (kwargs c) with
  | Some v => strings_of v
  | None => []
  end.

Definition int_kwarg (k : string) (c : call) : Z :=
  match kwarg k (kwargs c) with
  | Some (VInt n) => n
  | _ => 0
  end.

(** Modelled from the spec: the graph an export call describes: the input
    and output names and the format version it was given, weights in
    floating point. *)
Definition exported_graph (c : call) : graph :=
  {| graph_inputs := names_kwarg "input_names" c;
     graph_outputs := names_kwarg "output_names" c;
     graph_opset := int_kwarg "opset_version" c;
     graph_weights := Float32 |}.

Definition write (f : filesystem) (k : list string) (n : node) : filesystem :=
  {| entries := <[k := n]> (entries f); writable := writable f |}.

Definition is_graph (n : node) : bool :=
  match n with
  | GraphFile _ => true
  | _ => false
  end.

(** Modelled from the spec: the contract of the two graph stages.  An
    export that returns has written the traced graph to the path it was
    given.  A dynamic quantization that returns has read a graph from its
    input path and written that graph, its weights re-encoded as the weight
    type says, to its output path, leaving the input in place. *)
Record graph_contract (w : world) : Prop := mkGraphContract {
  export_writes :
    ∀ f h c f' v p,
      lib w f h c = (f', inl v) →
      callee c = "torch.onnx.export" →
      args c !! 2%nat = Some (VStr p) →
      entries f' !! key (of_string p) = Some (GraphFile (exported_graph c));
  quantize_reads_writes :
    ∀ f h c f' v i o q,
      lib w f h c = (f', inl v) →
      callee c = "quantize_dynamic" →
      args c = [VStr i; VStr o] →
      kwarg "weight_type" (kwargs c) = Some (VQuantType q) →
      ∃ g, entries f !! key (of_string i) = Some (GraphFile g)
           ∧ entries f' !! key (of_string o) = Some (GraphFile (requantize q g))
           ∧ (key (of_string i) ≠ key (of_string o) →
              entries f' !! key (of_string i) = Some (GraphFile g))
}.

(** [f'] has what [f] has, possibly overwritten, with the same
    directories: nothing was removed, no directory made, no graph file
    turned into something else. *)
Definition extends (f f' : filesystem) : Prop :=
  (∀ k, entries f !! k = Some Dir ↔ entries f' !! k = Some Dir)
  ∧ (∀ k n, entries f !! k = Some n →
            ∃ n', entries f' !! k = Some n'
                  ∧ (is_graph n = true → is_graph n' = true)).

(** Modelled from the spec: libraries that overwrite rather than fail.
    They only add and overwrite files; a call that returns on a disk
    returns the same on a disk that holds more; and more on the disk before
    means more on the disk after. *)
Record overwriting (w : world) : Prop := mkOverwriting {
  lib_extends : ∀ f h c, extends f (lib w f h c).1;
  lib_monotone :
    ∀ f f' h c v,
      extends f f' → (lib w f h c).2 = inl v → (lib w f' h c).2 = inl v;
  lib_monotone_disk :
    ∀ f f' h c, extends f f' → extends (lib w f h c).1 (lib w f' h c).1
}.




(** Libraries that write graph files: the export writes the graph it
    describes, the quantizer reads its input and writes the re-encoded
    graph; neither writes over a directory; every other call returns a
    fresh object. *)
Definition writing_libs
  : filesystem → list call → call → filesystem * (value + exn) :=
  λ f h c,
    if String.eqb (callee c) "torch.onnx.export" then
      match args c !! 2%nat with
      | Some (VStr p) =>
          if fs_is_dir f (key (of_string p))
          then (f, inr (mkExn "IsADirectoryError" true p))
          else (write f (key (of_string p)) (GraphFile (exported_graph c)),
                inl VNone)
      | _ => (f, inr (mkExn "TypeError" true "export"))
      end
    else if String.eqb (callee c) "quantize_dynamic" then
      match args c, kwarg "weight_type" (kwargs c) with
      | [VStr i; VStr o], Some (VQuantType q) =>
          match entries f !! key (of_string i) with
          | Some (GraphFile g) =>
              if fs_is_dir f (key (of_string o))
              then (f, inr (mkExn "IsADirectoryError" true o))
              else (write f (key (of_string o)) (GraphFile (requantize q g)),
                    inl VNone)
          | _ => (f, inr (mkExn "InvalidProtobuf" true i))
          end
      | _, _ => (f, inr (mkExn "TypeError" true "quantize_dynamic"))
      end
    else (f, inl (VObj (Pos.of_nat (length h)))).

(** ** Concrete worlds *)

Definition empty_disk : filesystem := mkFs ∅ (λ _, true).

(** A disk on which a previous run left its output directory, populated. *)
Definition populated_disk : filesystem :=
  mkFs (<[ ["bge-small-onnx"; "model.onnx"] := File ]>
        (<[ ["bge-small-onnx"; "config.json"] := File ]>
         (<[ ["bge-small-onnx"] := Dir ]> ∅)))
       (λ _, true).

(** Libraries that always succeed and return a fresh object. *)
Definition obliging : filesystem → list call → call → filesystem * (value + exn) :=
  λ fs h _, (fs, inl (VObj (Pos.of_nat (length h)))).

(** Libraries whose call number [n] (counting [mkdir] as call 0) raises [e]. *)
Definition failing_at (n : nat) (e : exn)
  : filesystem → list call → call → filesystem * (value + exn) :=
  λ fs h _, if Nat.eqb (length h) n then (fs, inr e)
            else (fs, inl (VObj (Pos.of_nat (length h)))).

Definition ConnectionError : exn :=
  mkExn "ConnectionError" true "Max retries exceeded".

Definition KeyboardInterrupt : exn := mkExn "KeyboardInterrupt" false "".

Definition good_world : world := mkWorld [] ∅ empty_disk obliging.

Definition rerun_world : world := mkWorld [] ∅ populated_disk obliging.

Definition offline_world : world :=
  mkWorld [] ∅ empty_disk (failing_at 1 ConnectionError).

Definition interrupted_world : world :=
  mkWorld [] ∅ empty_disk (failing_at 2 KeyboardInterrupt).

(** The same surroundings as [good_world], with a command line and
    environment variables that try to redirect the script. *)
Definition flagged_world : world :=
  mkWorld ["--model"; "other/model"; "--output"; "elsewhere"]
          {[ "HF_HOME" := "/tmp/hf"; "OUTPUT_DIR" := "elsewhere" ]}
          empty_disk obliging.

(** A disk on which a regular file has the output directory's name. *)
Definition blocked_disk : filesystem :=
  mkFs (<[ ["bge-small-onnx"] := File ]> ∅) (λ _, true).

Definition blocked_world : world := mkWorld [] ∅ blocked_disk obliging.

Definition unsupported_op_world : world :=
  mkWorld [] ∅ empty_disk
          (failing_at 9 (mkExn "UnsupportedOperatorError" true "aten::foo")).

(** A first run on an empty disk, against libraries that write. *)
Definition writing_world : world := mkWorld [] ∅ empty_disk writing_libs.




(** The model fetch, the third call of a run, fails. *)
Definition model_fetch_fails_world : world :=
  mkWorld [] ∅ empty_disk (failing_at 2 ConnectionError).

(** The export, the tenth call of a run, is interrupted. *)
Definition export_interrupted_world : world :=
  mkWorld [] ∅ empty_disk (failing_at 9 KeyboardInterrupt).

(** ** Reading a log *)

(** The lines [download_and_convert] prints when it runs to its end. *)
Definition progress_lines : list string :=
  ["Downloading BAAI/bge-small-en-v1.5 from Hugging Face...";
   "Saving model and tokenizer locally...";
   "Converting to ONNX format...";
   "Model exported to bge-small-onnx/model.onnx";
   "Quantizing model for mobile deployment...";
   "Quantized model saved to bge-small-onnx/bge-small-en-v1.5-quantized.onnx";
   nl +:+ "Model files:";
   "  - Full precision: bge-small-onnx/model.onnx";
   "  - Quantized: bge-small-onnx/bge-small-en-v1.5-quantized.onnx";
   nl +:+ "Recommended for Android: bge-small-en-v1.5-quantized.onnx";
   nl +:+ "Next step: Copy bge-small-en-v1.5-quantized.onnx to app/src/main/assets/bge-small-en-v1.5.onnx"].

(** What a log holds after its first call that raised. *)
Fixpoint after_raise (l : list event) : list event :=
  match l with
  | [] => []
  | Called _ (inr _) :: rest => rest
  | _ :: rest => after_raise rest
  end.

(** The calls of a log that raised. *)
Definition raised_calls (l : list event) : list (call * exn) :=
  omap (λ ev, match ev with Called c (inr e) => Some (c, e) | _ => None end) l.

(** Whether a call to [f] returned (did not raise) in a log. *)
Definition returned (f : string) (l : list event) : bool :=
  existsb (λ ev, match ev with
                 | Called c (inl _) => String.eqb (callee c) f
                 | _ => false
                 end) l.

(** ** Running the model on concrete inputs *)

Example str_truediv :
  str (of_string "bge-small-onnx" // "model.onnx") = "bge-small-onnx/model.onnx".
Proof. reflexivity. Qed.

Example truediv_absolute : of_string "a/b" // "/c" = of_string "/c".
Proof. reflexivity. Qed.

Example stem_suffix_example :
  stem (of_string "a/b.tar.gz") = "b.tar" ∧ suffix (of_string "a/b.tar.gz") = ".gz"
  ∧ stem (of_string ".bashrc") = ".bashrc" ∧ suffix (of_string ".bashrc") = "".
Proof. repeat split; reflexivity. Qed.

Example repo_name_example : repo_name model_name = "bge-small-en-v1.5".
Proof. reflexivity. Qed.

(** With a regular file in the way, [mkdir(exist_ok=True)] raises and the
    run stops there; the handler reports it. *)
Example blocked_world_runs :
  (run_pipeline blocked_world).2 = inr (FileExistsError output_dir)
  ∧ history (run_pipeline blocked_world).1 = [mkdir_call output_dir true]
  ∧ caught (final (run_script blocked_world)) = [FileExistsError output_dir].
Proof. vm_compute. done. Qed.

Example good_world_runs :
  (run_pipeline good_world).2 = inl quantized_path
  ∧ map callee (history (run_pipeline good_world).1) = stage_callees.
Proof. vm_compute. done. Qed.

(** On a disk that already holds the directory and files of an earlier
    run, the pipeline runs to its end. *)
Example rerun_world_runs :
  (run_pipeline rerun_world).2 = inl quantized_path
  ∧ map callee (history (run_pipeline rerun_world).1) = stage_callees.
Proof. vm_compute. done. Qed.

(** ** Symbolic execution of the pipeline

    Every run is cut at the calls that may raise: [mkdir], answered by the
    file system, and the ten library calls, answered by the world. *)

Ltac run_step H :=
  match type of H with
  | context [Path_mkdir ?f ?p ?b] =>
      let E := fresh "Hmkdir" in
      destruct (Path_mkdir f p b) as [?|?] eqn:E; cbn in H
  | context [lib ?w ?f ?h ?c] =>
      let E := fresh "Hlib" in
      destruct (lib w f h c) as [? [?|?]] eqn:E; cbn in H
  end.

Ltac run_pipeline_cases H :=
  unfold run_pipeline, download_and_convert, bind, mkdir, invoke, print, ret,
    emit, init, history in H;
  cbn in H;
  repeat run_step H.

Lemma run_pipeline_success w s p :
  run_pipeline w = (s, inl p) →
  ∃ r, log s = stage_log r ∧ caught s = [] ∧ p = quantized_path.
Proof.
  intros H. run_pipeline_cases H; try discriminate H.
  injection H as <- <-. cbn.
  by eexists (mkReturns _ _ _ _ _ _ _ _ _ _).
Qed.

Lemma run_pipeline_failure w s e :
  run_pipeline w = (s, inr e) →
  caught s = []
  ∧ ∃ r l c v,
      log s = l ++ [Called c (inr e)]
      ∧ (l ++ [Called c (inl v)]) `prefix_of` stage_log r.
Proof.
  intros H. run_pipeline_cases H; try discriminate H; injection H as <- <-; cbn;
    (split; [reflexivity|]);
    match goal with
    | |- ∃ r l c v, ?x = _ ∧ _ =>
        let l := eval cbv in (removelast x) in
        eexists (mkReturns _ _ _ _ _ _ _ _ _ _), l, _, _;
        split; [reflexivity | eexists; cbn; reflexivity]
    end.
  Unshelve. all: exact VNone.
Qed.

Lemma lines_of_app l k : lines_of (l ++ k) = lines_of l ++ lines_of k.
Proof. apply omap_app. Qed.

Lemma calls_of_app l k : calls_of (l ++ k) = calls_of l ++ calls_of k.
Proof. apply omap_app. Qed.

Lemma tracebacks_of_app l k :
  tracebacks_of (l ++ k) = tracebacks_of l ++ tracebacks_of k.
Proof. apply omap_app. Qed.

Lemma lines_of_prefix l k : l `prefix_of` k → lines_of l `prefix_of` lines_of k.
Proof. intros [t ->]. rewrite lines_of_app. by eexists. Qed.

Lemma tracebacks_of_stage_log r : tracebacks_of (stage_log r) = [].
Proof. reflexivity. Qed.

Lemma banner_not_in_stage_log r : success_banner ∉ lines_of (stage_log r).
Proof.
  cbn. intros H.
  repeat (apply elem_of_cons in H as [H|H]; [discriminate H|]).
  by apply elem_of_nil in H.
Qed.

Lemma error_message_not_banner e : error_message e ≠ success_banner.
Proof. unfold error_message, success_banner. cbn. discriminate. Qed.

Lemma not_in_prefix {A} (x : A) (l k : list A) : l `prefix_of` k → x ∉ k → x ∉ l.
Proof. intros [t ->] Hk Hl. apply Hk, elem_of_app. by left. Qed.

(** What [main] does with a run of the pipeline that raised. *)
Lemma main_on_failure w s e :
  run_pipeline w = (s, inr e) →
  main w (init w) =
    if is_Exception e
    then ({| fs := fs s;
             log := log s ++ [Stdout (error_message e); Stderr_traceback e];
             caught := [e] |}, inl tt)
    else (s, inr e).
Proof.
  intros H. pose proof (run_pipeline_failure _ _ _ H) as [Hc _].
  unfold run_pipeline in H.
  unfold main, try_except_Exception, bind. rewrite H.
  destruct (is_Exception e); [|reflexivity].
  unfold print, print_exc, emit. cbn. rewrite Hc, <- app_assoc. reflexivity.
Qed.

(** What [main] does with a run of the pipeline that returned. *)
Lemma main_on_success w s p :
  run_pipeline w = (s, inl p) →
  main w (init w) = (emit (Stdout success_banner) s, inl tt).
Proof.
  intros H. unfold run_pipeline in H.
  unfold main, try_except_Exception, bind. rewrite H. reflexivity.
Qed.

(** ** The top-level error boundary *)

(** C1, as the code has it: when a stage raises an exception [e] that is an
    instance of [Exception], the handler of the one [try] catches it, once;
    the error message goes to standard output and the traceback to standard
    error, right after what the run had logged; the call that raised is the
    last call made, so no later stage runs; the success banner is not
    printed; and the script then runs to its end, leaving through the
    normal exit with status 0. *)
Theorem C1_failure_reported_then_normal_exit w s e :
  run_pipeline w = (s, inr e) →
  is_Exception e = true →
  let o := run_script w in
  caught (final o) = [e]
  ∧ log (final o) = log s ++ [Stdout (error_message e); Stderr_traceback e]
  ∧ stderr (final o) = [e]
  ∧ (∃ l c, log s = l ++ [Called c (inr e)])
  ∧ history (final o) = history s
  ∧ (success_banner ∉ stdout (final o))
  ∧ exit o = ExitNormal
  ∧ exit_status (exit o) = Some 0.
Proof.
  intros H He o.
  destruct (run_pipeline_failure _ _ _ H) as (Hc & r & l & c & v & Hlog & Hpre).
  assert (Ho : o = {| final := {| fs := fs s;
                                  log := log s ++ [Stdout (error_message e);
                                                   Stderr_traceback e];
                                  caught := [e] |};
                      exit := ExitNormal |}).
  { unfold o, run_script. rewrite (main_on_failure _ _ _ H), He. reflexivity. }
  rewrite Ho. cbn.
  assert (Hl : l `prefix_of` stage_log r).
  { destruct Hpre as [t Ht]. exists ([Called c (inl v)] ++ t).
    by rewrite Ht, <- app_assoc. }
  repeat split; try reflexivity.
  - unfold stderr. cbn. rewrite Hlog, !tracebacks_of_app. cbn.
    assert (tracebacks_of l = []) as ->; [|reflexivity].
    destruct Hl as [t Ht].
    pose proof (tracebacks_of_stage_log r) as Hnil.
    rewrite Ht, tracebacks_of_app in Hnil. by apply app_eq_nil in Hnil as [-> _].
  - eauto.
  - unfold history. cbn. rewrite calls_of_app. cbn. by rewrite app_nil_r.
  - unfold stdout. cbn. rewrite Hlog, !lines_of_app. cbn. rewrite app_nil_r.
    intros Hin. apply elem_of_app in Hin as [Hin|Hin].
    + revert Hin. eapply not_in_prefix; [by apply lines_of_prefix|].
      apply banner_not_in_stage_log.
    + apply list_elem_of_singleton in Hin.
      by apply (error_message_not_banner e).
Qed.

Lemma C1_failure_reported_then_normal_exit_witness :
  run_pipeline offline_world =
    ((run_pipeline offline_world).1, inr ConnectionError)
  ∧ (let o := run_script offline_world in
     caught (final o) = [ConnectionError]
     ∧ exit o = ExitNormal).
Proof.
  split; [reflexivity|].
  pose proof (C1_failure_reported_then_normal_exit offline_world
                (run_pipeline offline_world).1 ConnectionError
                eq_refl eq_refl) as H.
  cbv zeta in H. destruct H as (H1 & _ & _ & _ & _ & _ & H2 & _).
  split; assumption.
Defined.

(** C1 as stated fails: with the registry unreachable the exception is
    caught and reported, but the process does not leave through the
    interpreter's failure exit; it ends as a successful run does.  And an
    exception outside [Exception] raised by a stage is not caught at all:
    nothing is reported by the script. *)
Lemma C1_counterexample :
  (run_pipeline offline_world).2 = inr ConnectionError
  ∧ is_Exception ConnectionError = true
  ∧ failure_exit (exit (run_script offline_world)) = false
  ∧ exit (run_script offline_world) = exit (run_script good_world)
  ∧ (run_pipeline interrupted_world).2 = inr KeyboardInterrupt
  ∧ caught (final (run_script interrupted_world)) = []
  ∧ stderr (final (run_script interrupted_world)) = []
  ∧ error_message KeyboardInterrupt ∉ stdout (final (run_script interrupted_world)).
Proof.
  repeat split; try reflexivity.
  vm_compute. intros H.
  repeat (apply elem_of_cons in H as [H|H]; [discriminate H|]).
  by apply elem_of_nil in H.
Qed.

(** ** The calls of a complete run *)

Lemma history_of_success w s p :
  run_pipeline w = (s, inl p) →
  ∃ r, log s = stage_log r
       ∧ history s = calls_of (stage_log r)
       ∧ stdout s = lines_of (stage_log r)
       ∧ p = quantized_path.
Proof.
  intros H. destruct (run_pipeline_success _ _ _ H) as (r & Hlog & _ & ->).
  exists r. unfold history, stdout. by rewrite Hlog.
Qed.

(** C2: in a complete run the export is told to write
    [bge-small-onnx/model.onnx] and the quantizer to write
    [bge-small-onnx/bge-small-en-v1.5-quantized.onnx]; both files lie in the
    output directory; the first is named [model.onnx]; the name of the
    second is the model identifier's name (what follows its last slash)
    with [-quantized] appended, before the [.onnx] extension. *)
Theorem C2_output_file_names w s p :
  run_pipeline w = (s, inl p) →
  ∃ ex q,
    calls_to "torch.onnx.export" (history s) = [ex]
    ∧ calls_to "quantize_dynamic" (history s) = [q]
    ∧ args ex !! 2%nat = Some (VStr (str onnx_path))
    ∧ args q !! 1%nat = Some (VStr (str quantized_path))
    ∧ model_name = "BAAI/bge-small-en-v1.5"
    ∧ parent onnx_path = output_dir
    ∧ parent quantized_path = output_dir
    ∧ name onnx_path = "model.onnx"
    ∧ name quantized_path = repo_name model_name +:+ "-quantized" +:+ ".onnx"
    ∧ stem quantized_path = repo_name model_name +:+ "-quantized"
    ∧ suffix quantized_path = ".onnx".
Proof.
  intros H. destruct (history_of_success _ _ _ H) as (r & _ & Hh & _ & _).
  rewrite Hh. do 2 eexists. repeat split; reflexivity.
Qed.

Lemma C2_output_file_names_witness :
  ∃ ex q,
    calls_to "torch.onnx.export" (history (run_pipeline good_world).1) = [ex]
    ∧ calls_to "quantize_dynamic" (history (run_pipeline good_world).1) = [q]
    ∧ args ex !! 2%nat = Some (VStr "bge-small-onnx/model.onnx")
    ∧ args q !! 1%nat = Some (VStr "bge-small-onnx/bge-small-en-v1.5-quantized.onnx").
Proof.
  assert (Hrun : run_pipeline good_world
                 = ((run_pipeline good_world).1, inl quantized_path))
    by (vm_compute; reflexivity).
  destruct (C2_output_file_names good_world _ _ Hrun)
    as (ex & q & H1 & H2 & H3 & H4 & _).
  exists ex, q. split; [exact H1|]. split; [exact H2|].
  split; [exact H3 | exact H4].
Defined.

(** ** The export call *)

(** C3: a complete run makes one export call; its inputs are named
    [input_ids] and [attention_mask], its output [last_hidden_state]; the
    [dynamic_axes] dictionary has exactly these three keys, and under each
    of them the declared axes are exactly 0, named [batch_size], and 1,
    named [sequence_length]. *)
Theorem C3_dynamic_axes w s p :
  run_pipeline w = (s, inl p) →
  ∃ ex d,
    calls_to "torch.onnx.export" (history s) = [ex]
    ∧ kwarg "input_names" (kwargs ex)
      = Some (VList [VStr "input_ids"; VStr "attention_mask"])
    ∧ kwarg "output_names" (kwargs ex) = Some (VList [VStr "last_hidden_state"])
    ∧ kwarg "dynamic_axes" (kwargs ex) = Some (VDict d)
    ∧ d.*1 = VStr <$> tensor_names
    ∧ ∀ t, t ∈ tensor_names →
        ∃ ax, dict_get_str t d = Some ax
              ∧ declared_axes ax = {[0; 1]}
              ∧ ax = VDict [(VInt 0, VStr "batch_size");
                            (VInt 1, VStr "sequence_length")].
Proof.
  intros H. destruct (history_of_success _ _ _ H) as (r & _ & Hh & _ & _).
  rewrite Hh. do 2 eexists. repeat split; try reflexivity.
  intros t Ht. exists axes.
  assert (Hax : declared_axes axes = {[0; 1]}).
  { unfold declared_axes, axes. cbn. set_solver. }
  unfold tensor_names in Ht.
  repeat (apply elem_of_cons in Ht as [->|Ht]; [by repeat split|]).
  by apply elem_of_nil in Ht.
Qed.

Lemma C3_dynamic_axes_witness :
  ∃ ex d,
    calls_to "torch.onnx.export" (history (run_pipeline good_world).1) = [ex]
    ∧ kwarg "dynamic_axes" (kwargs ex) = Some (VDict d)
    ∧ ∃ ax, dict_get_str "last_hidden_state" d = Some ax
            ∧ declared_axes ax = {[0; 1]}.
Proof.
  assert (Hrun : run_pipeline good_world
                 = ((run_pipeline good_world).1, inl quantized_path))
    by (vm_compute; reflexivity).
  destruct (C3_dynamic_axes good_world _ _ Hrun)
    as (ex & d & H1 & _ & _ & H2 & _ & H3).
  exists ex, d. split; [exact H1|]. split; [exact H2|].
  destruct (H3 "last_hidden_state") as (ax & Hax1 & Hax2 & _).
  - do 2 apply list_elem_of_further. apply list_elem_of_here.
  - exists ax. split; [exact Hax1 | exact Hax2].
Defined.

(** C9: the export call of a complete run asks for opset version 14 and
    for constant folding. *)
Theorem C9_opset_and_constant_folding w s p :
  run_pipeline w = (s, inl p) →
  ∃ ex,
    calls_to "torch.onnx.export" (history s) = [ex]
    ∧ kwarg "opset_version" (kwargs ex) = Some (VInt 14)
    ∧ kwarg "do_constant_folding" (kwargs ex) = Some (VBool true).
Proof.
  intros H. destruct (history_of_success _ _ _ H) as (r & _ & Hh & _ & _).
  rewrite Hh. eexists. repeat split; reflexivity.
Qed.

Lemma C9_opset_and_constant_folding_witness :
  ∃ ex,
    calls_to "torch.onnx.export" (history (run_pipeline good_world).1) = [ex]
    ∧ kwarg "opset_version" (kwargs ex) = Some (VInt 14)
    ∧ kwarg "do_constant_folding" (kwargs ex) = Some (VBool true).
Proof.
  assert (Hrun : run_pipeline good_world
                 = ((run_pipeline good_world).1, inl quantized_path))
    by (vm_compute; reflexivity).
  exact (C9_opset_and_constant_folding good_world _ _ Hrun).
Defined.

(** C8: a complete run calls the tokenizer once, on the one fixed
    sentence, with padding and truncation switched on and a maximum length
    of 512; the tokenizer is the one that was fetched.  The result is
    subscripted twice, by [input_ids] and by [attention_mask], and the one
    export call is given the fetched model, the pair of these two tensors,
    and its destination. *)
Theorem C8_one_example_input w s p :
  run_pipeline w = (s, inl p) →
  ∃ r tok ex,
    calls_to "__call__" (history s) = [tok]
    ∧ tok = mkCall "__call__" (Some (tokenizer r))
                   [VStr "This is a sample sentence for conversion."]
                   [("return_tensors", VStr "pt"); ("padding", VBool true);
                    ("truncation", VBool true); ("max_length", VInt 512)]
    ∧ self tok = Some (tokenizer r)
    ∧ args tok = [VStr "This is a sample sentence for conversion."]
    ∧ kwarg "padding" (kwargs tok) = Some (VBool true)
    ∧ kwarg "truncation" (kwargs tok) = Some (VBool true)
    ∧ kwarg "max_length" (kwargs tok) = Some (VInt 512)
    ∧ kwarg "return_tensors" (kwargs tok) = Some (VStr "pt")
    ∧ Called (mkCall "AutoTokenizer.from_pretrained" None
                     [VStr "BAAI/bge-small-en-v1.5"] [])
             (inl (tokenizer r)) ∈ log s
    ∧ Called (mkCall "AutoModel.from_pretrained" None
                     [VStr "BAAI/bge-small-en-v1.5"] [])
             (inl (model r)) ∈ log s
    ∧ Called tok (inl (inputs r)) ∈ log s
    ∧ calls_to "__getitem__" (history s)
      = [mkCall "__getitem__" (Some (inputs r)) [VStr "input_ids"] [];
         mkCall "__getitem__" (Some (inputs r)) [VStr "attention_mask"] []]
    ∧ Called (mkCall "__getitem__" (Some (inputs r)) [VStr "input_ids"] [])
             (inl (input_ids r)) ∈ log s
    ∧ Called (mkCall "__getitem__" (Some (inputs r)) [VStr "attention_mask"] [])
             (inl (attention_mask r)) ∈ log s
    ∧ calls_to "torch.onnx.export" (history s) = [ex]
    ∧ args ex = [model r; VTuple [input_ids r; attention_mask r];
                 VStr "bge-small-onnx/model.onnx"].
Proof.
  intros H. destruct (history_of_success _ _ _ H) as (r & Hlog & Hh & _ & _).
  rewrite Hh, Hlog. exists r. do 2 eexists.
  repeat split; try reflexivity; unfold stage_log;
    repeat first [apply list_elem_of_here | apply list_elem_of_further].
Qed.

Lemma C8_one_example_input_witness :
  ∃ tok,
    calls_to "__call__" (history (run_pipeline good_world).1) = [tok]
    ∧ args tok = [VStr dummy_text]
    ∧ kwarg "max_length" (kwargs tok) = Some (VInt 512).
Proof.
  assert (Hrun : run_pipeline good_world
                 = ((run_pipeline good_world).1, inl quantized_path))
    by (vm_compute; reflexivity).
  destruct (C8_one_example_input good_world _ _ Hrun)
    as (r & tok & ex & H1 & _ & _ & H2 & _ & _ & H3 & _).
  exists tok. split; [exact H1|]. split; [exact H2 | exact H3].
Defined.

(** ** The quantization call *)

(** The two graph stages of a complete run, with the disks they were
    answered on: the quantizer is answered on the disk the export left. *)
Lemma run_pipeline_success_disk w s p :
  run_pipeline w = (s, inl p) →
  ∃ r f h f' h',
    log s = stage_log r
    ∧ lib w f h (torch_onnx_export (model r) (input_ids r) (attention_mask r)
                                   onnx_path)
      = (f', inl (exported r))
    ∧ lib w f' h' (quantize_dynamic onnx_path quantized_path)
      = (fs s, inl (quantized r)).
Proof.
  intros H. run_pipeline_cases H; try discriminate H.
  injection H as <- <-. cbn.
  eexists (mkReturns _ _ _ _ _ _ _ _ _ _). do 4 eexists.
  split; [reflexivity|]. split; eassumption.
Qed.

Lemma writing_libs_graph_contract a e d :
  graph_contract (mkWorld a e d writing_libs).
Proof.
  split; cbn; unfold writing_libs.
  - intros f h c f' v p H Hc Ha. rewrite Hc, Ha in H. cbn in H.
    destruct (fs_is_dir f (key (of_string p))); [discriminate H|].
    injection H as <- _. cbn. by rewrite lookup_insert_eq.
  - intros f h c f' v i o q H Hc Ha Hk. rewrite Hc, Ha, Hk in H. cbn in H.
    destruct (entries f !! key (of_string i)) as [[| |g]|] eqn:Hin;
      try discriminate H.
    destruct (fs_is_dir f (key (of_string o))); [discriminate H|].
    injection H as <- _. exists g. cbn. split; [reflexivity|].
    split; [by rewrite lookup_insert_eq|].
    intros Hne. by rewrite lookup_insert_ne.
Qed.

(** C4: in a complete run against libraries that keep the contract of the
    graph stages, the one call to [quantize_dynamic], the dynamic
    quantizer, is given the path the export wrote to and nothing but
    [weight_type=QuantType.QUInt8], so no calibration data.  It reads the
    exported graph from [bge-small-onnx/model.onnx], and the disk then
    holds, beside that file and in the same directory, the second graph:
    the same inputs and outputs, weights as unsigned 8-bit integers. *)
Theorem C4_quantization_call w s p :
  graph_contract w →
  run_pipeline w = (s, inl p) →
  ∃ ex g,
    calls_to "torch.onnx.export" (history s) = [ex]
    ∧ args ex !! 2%nat = Some (VStr "bge-small-onnx/model.onnx")
    ∧ calls_to "quantize_dynamic" (history s)
      = [mkCall "quantize_dynamic" None
                [VStr "bge-small-onnx/model.onnx";
                 VStr "bge-small-onnx/bge-small-en-v1.5-quantized.onnx"]
                [("weight_type", VQuantType QUInt8)]]
    ∧ g = exported_graph ex
    ∧ graph_weights g = Float32
    ∧ entries (fs s) !! ["bge-small-onnx"; "model.onnx"] = Some (GraphFile g)
    ∧ entries (fs s) !! ["bge-small-onnx"; "bge-small-en-v1.5-quantized.onnx"]
      = Some (GraphFile {| graph_inputs := ["input_ids"; "attention_mask"];
                           graph_outputs := ["last_hidden_state"];
                           graph_opset := 14;
                           graph_weights := UInt8 |})
    ∧ requantize QUInt8 g
      = {| graph_inputs := ["input_ids"; "attention_mask"];
           graph_outputs := ["last_hidden_state"];
           graph_opset := 14;
           graph_weights := UInt8 |}
    ∧ parent quantized_path = parent onnx_path.
Proof.
  intros Hw H.
  destruct (run_pipeline_success_disk _ _ _ H)
    as (r & f & h & f' & h' & Hlog & Hex & Hq).
  pose proof (export_writes w Hw _ _ _ _ _ "bge-small-onnx/model.onnx"
                Hex eq_refl eq_refl) as Hwritten.
  destruct (quantize_reads_writes w Hw _ _ _ _ _
              "bge-small-onnx/model.onnx"
              "bge-small-onnx/bge-small-en-v1.5-quantized.onnx" QUInt8
              Hq eq_refl eq_refl eq_refl)
    as (g & Hread & Hout & Hkept).
  rewrite Hwritten in Hread. injection Hread as <-.
  unfold history. rewrite Hlog.
  do 2 eexists. split; [reflexivity|]. split; [reflexivity|].
  split; [reflexivity|]. split; [reflexivity|]. split; [reflexivity|].
  split; [apply Hkept; by vm_compute|].
  split; [exact Hout|]. split; reflexivity.
Qed.

Lemma C4_quantization_call_witness :
  entries (fs (run_pipeline writing_world).1)
    !! ["bge-small-onnx"; "bge-small-en-v1.5-quantized.onnx"]
  = Some (GraphFile {| graph_inputs := ["input_ids"; "attention_mask"];
                       graph_outputs := ["last_hidden_state"];
                       graph_opset := 14;
                       graph_weights := UInt8 |}).
Proof.
  assert (Hrun : run_pipeline writing_world
                 = ((run_pipeline writing_world).1, inl quantized_path))
    by (vm_compute; reflexivity).
  destruct (C4_quantization_call writing_world _ _
              (writing_libs_graph_contract _ _ _) Hrun)
    as (ex & g & _ & _ & _ & _ & _ & _ & H & _).
  exact H.
Defined.

(** ** The return value *)

(** C10, as the code has it: a complete run returns
    [output_dir / "bge-small-en-v1.5-quantized.onnx"]; the line that
    recommends the artifact prints the file name of that path, not the
    path; the path itself is printed on the [Quantized:] line. *)
Theorem C10_returns_quantized_path w s p :
  run_pipeline w = (s, inl p) →
  p = output_dir // "bge-small-en-v1.5-quantized.onnx"
  ∧ str p = "bge-small-onnx/bge-small-en-v1.5-quantized.onnx"
  ∧ name p = "bge-small-en-v1.5-quantized.onnx"
  ∧ stdout s !! 8%nat = Some ("  - Quantized: " +:+ str p)
  ∧ stdout s !! 9%nat = Some (nl +:+ "Recommended for Android: " +:+ name p)
  ∧ length (stdout s) = 11%nat.
Proof.
  intros H. destruct (history_of_success _ _ _ H) as (r & _ & _ & Hout & ->).
  rewrite Hout. repeat split; reflexivity.
Qed.

Lemma C10_returns_quantized_path_witness :
  (run_pipeline good_world).2 = inl (output_dir // "bge-small-en-v1.5-quantized.onnx")
  ∧ stdout (run_pipeline good_world).1 !! 9%nat
    = Some (nl +:+ "Recommended for Android: bge-small-en-v1.5-quantized.onnx").
Proof.
  assert (Hrun : run_pipeline good_world
                 = ((run_pipeline good_world).1, inl quantized_path))
    by (vm_compute; reflexivity).
  destruct (C10_returns_quantized_path good_world _ _ Hrun)
    as (_ & _ & _ & _ & H & _).
  split; [vm_compute; reflexivity | exact H].
Defined.

(** C10 as stated fails: the path returned is not what the recommendation
    line prints.  The run returns [bge-small-onnx/bge-small-en-v1.5-quantized.onnx]
    and the line reads [Recommended for Android: bge-small-en-v1.5-quantized.onnx]. *)
Lemma C10_counterexample :
  (run_pipeline good_world).2 = inl quantized_path
  ∧ stdout (run_pipeline good_world).1 !! 9%nat
    = Some (nl +:+ "Recommended for Android: bge-small-en-v1.5-quantized.onnx")
  ∧ stdout (run_pipeline good_world).1 !! 9%nat
    ≠ Some (nl +:+ "Recommended for Android: " +:+ str quantized_path)
  ∧ (∀ i, stdout (run_pipeline good_world).1 !! i
          ≠ Some (nl +:+ "Recommended for Android: " +:+ str quantized_path)).
Proof.
  split; [vm_compute; reflexivity|].
  split; [vm_compute; reflexivity|].
  split; [vm_compute; discriminate|].
  intros i. do 11 (destruct i as [|i]; [vm_compute; discriminate|]).
  vm_compute. destruct i; discriminate.
Qed.

(** ** The order of the stages *)

Lemma calls_of_prefix l k : l `prefix_of` k → calls_of l `prefix_of` calls_of k.
Proof. intros [t ->]. rewrite calls_of_app. by eexists. Qed.

Lemma fmap_prefix {A B} (f : A → B) (l k : list A) :
  l `prefix_of` k → f <$> l `prefix_of` f <$> k.
Proof. intros [t ->]. rewrite fmap_app. by eexists. Qed.

Lemma callees_of_stage_log r : callee <$> calls_of (stage_log r) = stage_callees.
Proof. reflexivity. Qed.

(** The calls of any run, complete or not, are the first calls of the one
    fixed sequence. *)
Lemma callees_prefix w :
  callee <$> history (run_pipeline w).1 `prefix_of` stage_callees.
Proof.
  destruct (run_pipeline w) as [s [p|e]] eqn:H; cbn.
  - destruct (history_of_success _ _ _ H) as (r & _ & -> & _).
    by rewrite callees_of_stage_log.
  - destruct (run_pipeline_failure _ _ _ H) as (_ & r & l & c & v & Hlog & Hpre).
    apply calls_of_prefix, (fmap_prefix callee) in Hpre.
    rewrite callees_of_stage_log in Hpre.
    unfold history. rewrite Hlog.
    by rewrite calls_of_app in *.
Qed.

(** C5: whatever the libraries do, the calls of a run are an initial
    segment of one fixed sequence: [mkdir], the two fetches, the two saves,
    [eval], the tokenizer, the two subscripts, the export, the quantizer.
    In a complete run all of them are made; the quantizer is given, as its
    input, the path string the export was given as its destination; and
    after the quantizer's call the lines with the full-precision path and
    with the quantized path are printed. *)
Theorem C5_fixed_stage_order w :
  callee <$> history (run_pipeline w).1 `prefix_of` stage_callees
  ∧ ∀ s p, run_pipeline w = (s, inl p) →
      callee <$> history s = stage_callees
      ∧ (∃ ex q,
            calls_to "torch.onnx.export" (history s) = [ex]
            ∧ calls_to "quantize_dynamic" (history s) = [q]
            ∧ args ex !! 2%nat = Some (VStr (str onnx_path))
            ∧ args q !! 0%nat = Some (VStr (str onnx_path)))
      ∧ lines_of (after_call "quantize_dynamic" (log s)) !! 2%nat
        = Some ("  - Full precision: " +:+ str onnx_path)
      ∧ lines_of (after_call "quantize_dynamic" (log s)) !! 3%nat
        = Some ("  - Quantized: " +:+ str quantized_path).
Proof.
  split; [apply callees_prefix|].
  intros s p H. destruct (history_of_success _ _ _ H) as (r & Hlog & Hh & _ & _).
  rewrite Hh, Hlog. split; [reflexivity|].
  split; [do 2 eexists; repeat split; reflexivity|].
  split; reflexivity.
Qed.

Lemma C5_fixed_stage_order_witness :
  callee <$> history (run_pipeline good_world).1 = stage_callees
  ∧ callee <$> history (run_pipeline unsupported_op_world).1 `prefix_of` stage_callees.
Proof.
  assert (Hrun : run_pipeline good_world
                 = ((run_pipeline good_world).1, inl quantized_path))
    by (vm_compute; reflexivity).
  split.
  - destruct (C5_fixed_stage_order good_world) as [_ H].
    destruct (H _ _ Hrun) as [H1 _]. exact H1.
  - destruct (C5_fixed_stage_order unsupported_op_world) as [H _]. exact H.
Defined.

(** ** Independence from the command line and the environment *)

(** C6: the script reads neither the command line nor the environment.
    Two worlds with the same disk and the same library behaviour give the
    same run, whatever their arguments and environment variables; and any
    two complete runs, even against different library behaviour, make the
    same calls in the same order, pass the same paths, print the same lines
    and return the same path. *)
Theorem C6_same_run_for_any_arguments w1 w2 :
  (disk w1 = disk w2 → lib w1 = lib w2 →
   run_pipeline w1 = run_pipeline w2 ∧ run_script w1 = run_script w2)
  ∧ ∀ s1 p1 s2 p2,
      run_pipeline w1 = (s1, inl p1) → run_pipeline w2 = (s2, inl p2) →
      p1 = p2
      ∧ callee <$> history s1 = callee <$> history s2
      ∧ stdout s1 = stdout s2
      ∧ calls_to "quantize_dynamic" (history s1)
        = calls_to "quantize_dynamic" (history s2)
      ∧ calls_to "mkdir" (history s1) = calls_to "mkdir" (history s2).
Proof.
  split.
  - destruct w1 as [a1 e1 d1 l1], w2 as [a2 e2 d2 l2]. cbn.
    intros -> ->. split; reflexivity.
  - intros s1 p1 s2 p2 H1 H2.
    destruct (history_of_success _ _ _ H1) as (r1 & _ & -> & -> & ->).
    destruct (history_of_success _ _ _ H2) as (r2 & _ & -> & -> & ->).
    repeat split; reflexivity.
Qed.

Lemma C6_same_run_for_any_arguments_witness :
  argv good_world ≠ argv flagged_world
  ∧ run_script good_world = run_script flagged_world.
Proof.
  split; [discriminate|].
  destruct (C6_same_run_for_any_arguments good_world flagged_world) as [H _].
  destruct (H eq_refl eq_refl) as [_ H']. exact H'.
Defined.

(** ** Disks that only grow *)







(** ** The output directory *)





(** ** Running again on the disk a run left *)













Lemma overwriting_lib w w' : lib w = lib w' → overwriting w → overwriting w'.
Proof.
  destruct w as [a e d l], w' as [a' e' d' l']. cbn. intros -> [H1 H2 H3].
  by split.
Qed.




(** ** Beyond the claims: the script as a whole *)

(** X1: when [download_and_convert] returns, what the script itself has
    printed is the eleven progress lines and then the success banner, in
    this order and nothing else; the handler has not run, so the script has
    printed no traceback and caught nothing; it has made no further call,
    and it leaves through the normal exit.  (What the libraries write to
    the standard streams on their own is not part of the log.) *)
Theorem X1_success_transcript w s p :
  run_pipeline w = (s, inl p) →
  let o := run_script w in
  stdout (final o) = progress_lines ++ [success_banner]
  ∧ stderr (final o) = []
  ∧ caught (final o) = []
  ∧ history (final o) = history s
  ∧ fs (final o) = fs s
  ∧ exit o = ExitNormal.
Proof.
  intros H o.
  destruct (run_pipeline_success _ _ _ H) as (r & Hlog & Hc & _).
  assert (Ho : o = {| final := emit (Stdout success_banner) s;
                      exit := ExitNormal |}).
  { unfold o, run_script. by rewrite (main_on_success _ _ _ H). }
  rewrite Ho. unfold stdout, stderr, history, emit. cbn.
  rewrite lines_of_app, tracebacks_of_app, calls_of_app, Hlog, Hc.
  repeat split; reflexivity.
Qed.

Lemma X1_success_transcript_witness :
  stdout (final (run_script good_world)) = progress_lines ++ [success_banner]
  ∧ exit (run_script good_world) = ExitNormal.
Proof.
  assert (Hrun : run_pipeline good_world
                 = ((run_pipeline good_world).1, inl quantized_path))
    by (vm_compute; reflexivity).
  destruct (X1_success_transcript good_world _ _ Hrun)
    as (H1 & _ & _ & _ & _ & H2).
  split; [exact H1 | exact H2].
Defined.

(** X2: an exception that is not an instance of [Exception] passes through
    the [try]: the handler does not run, so neither the error message nor a
    traceback is printed by the script and nothing is recorded as caught;
    the success banner is not printed either; the exception reaches the
    interpreter, and the state is the one the failing call left. *)
Theorem X2_base_exception_propagates w s e :
  run_pipeline w = (s, inr e) →
  is_Exception e = false →
  let o := run_script w in
  exit o = ExitUncaught e
  ∧ final o = s
  ∧ caught (final o) = []
  ∧ stderr (final o) = []
  ∧ (success_banner ∉ stdout (final o))
  ∧ stdout (final o) `prefix_of` progress_lines.
Proof.
  intros H He o.
  destruct (run_pipeline_failure _ _ _ H) as (Hc & r & l & c & v & Hlog & Hpre).
  assert (Ho : o = {| final := s; exit := ExitUncaught e |}).
  { unfold o, run_script. by rewrite (main_on_failure _ _ _ H), He. }
  rewrite Ho. cbn.
  assert (Hl : l `prefix_of` stage_log r).
  { destruct Hpre as [t Ht]. exists ([Called c (inl v)] ++ t).
    by rewrite Ht, <- app_assoc. }
  assert (Hout : stdout s = lines_of l).
  { unfold stdout. rewrite Hlog, lines_of_app. cbn. by rewrite app_nil_r. }
  assert (Hpl : stdout s `prefix_of` progress_lines).
  { rewrite Hout. by apply (lines_of_prefix _ _ Hl). }
  repeat split; try done.
  - unfold stderr. rewrite Hlog, tracebacks_of_app. cbn. rewrite app_nil_r.
    destruct Hl as [t Ht]. pose proof (tracebacks_of_stage_log r) as Hnil.
    rewrite Ht, tracebacks_of_app in Hnil. by apply app_eq_nil in Hnil as [-> _].
  - eapply not_in_prefix; [exact Hpl|]. apply (banner_not_in_stage_log r).
Qed.

Lemma X2_base_exception_propagates_witness :
  exit (run_script export_interrupted_world) = ExitUncaught KeyboardInterrupt
  ∧ caught (final (run_script export_interrupted_world)) = [].
Proof.
  assert (Hrun : run_pipeline export_interrupted_world
                 = ((run_pipeline export_interrupted_world).1,
                    inr KeyboardInterrupt))
    by (vm_compute; reflexivity).
  destruct (X2_base_exception_propagates export_interrupted_world _ _
              Hrun eq_refl)
    as (H1 & _ & H2 & _).
  split; [exact H1 | exact H2].
Defined.

(** X3: the success banner is on standard output exactly when
    [download_and_convert] returned; whatever the libraries do, a run that
    raised never prints it. *)
Theorem X3_banner_iff_success w :
  success_banner ∈ stdout (final (run_script w))
  ↔ ∃ s p, run_pipeline w = (s, inl p).
Proof.
  destruct (run_pipeline w) as [s [p|e]] eqn:H.
  - split; [by eauto|]. intros _.
    unfold run_script. rewrite (main_on_success _ _ _ H).
    unfold stdout, emit. cbn. rewrite lines_of_app. cbn.
    apply elem_of_app. right. apply list_elem_of_here.
  - split; [|by intros (s' & p' & [=])].
    intros Hin. exfalso.
    destruct (run_pipeline_failure _ _ _ H) as (Hc & r & l & c & v & Hlog & Hpre).
    assert (Hl : l `prefix_of` stage_log r).
    { destruct Hpre as [t Ht]. exists ([Called c (inl v)] ++ t).
      by rewrite Ht, <- app_assoc. }
    assert (Hno : success_banner ∉ lines_of l).
    { eapply not_in_prefix; [by apply lines_of_prefix|].
      apply banner_not_in_stage_log. }
    revert Hin. unfold run_script. rewrite (main_on_failure _ _ _ H).
    destruct (is_Exception e); unfold stdout; cbn; rewrite Hlog;
      rewrite !lines_of_app; cbn; rewrite ?app_nil_r; [|done].
    intros Hin. apply elem_of_app in Hin as [Hin|Hin]; [done|].
    apply list_elem_of_singleton in Hin.
    by apply (error_message_not_banner e).
Qed.

(** ** Beyond the claims: failures stage by stage *)






(** ** Beyond the claims: what the log of any run looks like *)

(** A run, cut into its twelve cases: the state and result in each. *)
Ltac every_run w s res H :=
  destruct (run_pipeline w) as [s res] eqn:H;
  let H' := fresh in
  pose proof H as H'; run_pipeline_cases H'; injection H' as <- <-.

Ltac in_list :=
  repeat first [apply list_elem_of_here | apply list_elem_of_further].

Ltac not_in_list H :=
  repeat (apply elem_of_cons in H as [H|H]; [discriminate H|]);
  by apply elem_of_nil in H.

(** X5: the lines that announce a finished step are printed exactly when
    that step's call returned: [Saving model and tokenizer locally...] when
    the model fetch returned, [Model exported to ...] when the export
    returned, [Quantized model saved to ...] when the quantizer returned.
    This holds for every run, also one that fails later. *)
Theorem X5_progress_lines_follow_returns w :
  let s := (run_pipeline w).1 in
  ("Saving model and tokenizer locally..." ∈ stdout s
   ↔ returned "AutoModel.from_pretrained" (log s) = true)
  ∧ ("Model exported to bge-small-onnx/model.onnx" ∈ stdout s
     ↔ returned "torch.onnx.export" (log s) = true)
  ∧ ("Quantized model saved to bge-small-onnx/bge-small-en-v1.5-quantized.onnx"
       ∈ stdout s
     ↔ returned "quantize_dynamic" (log s) = true).
Proof.
  every_run w s res H; cbn;
    repeat split;
    first [ by intros _; reflexivity
          | by intros _; unfold stdout; cbn; in_list
          | by intros Hin; exfalso; unfold stdout in Hin; cbn in Hin;
               not_in_list Hin
          | by intros Hr; discriminate Hr ].
Qed.

(** X6: whenever the export is called, whether it then returns or raises,
    the model it is given is the one [AutoModel.from_pretrained] returned,
    that model has been saved and put in evaluation mode by calls that
    returned, and the tokenizer has been saved. *)
Theorem X6_export_after_save_and_eval w c res :
  Called c res ∈ log (run_pipeline w).1 →
  callee c = "torch.onnx.export" →
  ∃ m v1 v2,
    args c !! 0%nat = Some m
    ∧ Called (from_pretrained "AutoModel" model_name) (inl m)
        ∈ log (run_pipeline w).1
    ∧ Called (save_pretrained m output_dir) (inl v1) ∈ log (run_pipeline w).1
    ∧ Called (eval m) (inl v2) ∈ log (run_pipeline w).1
    ∧ returned "save_pretrained" (log (run_pipeline w).1) = true.
Proof.
  every_run w s res' H; cbn; intros Hin Hc;
    repeat (apply elem_of_cons in Hin as [Hin|Hin];
            [first [ discriminate Hin
                   | injection Hin as -> ->;
                     first [ discriminate Hc
                           | do 3 eexists; split; [reflexivity|];
                             repeat split; first [reflexivity | in_list] ] ]|]);
    by apply elem_of_nil in Hin.
Qed.

Lemma X6_export_after_save_and_eval_witness :
  ∃ c e m v,
    Called c (inr e) ∈ log (run_pipeline unsupported_op_world).1
    ∧ callee c = "torch.onnx.export"
    ∧ args c !! 0%nat = Some m
    ∧ Called (eval m) (inl v) ∈ log (run_pipeline unsupported_op_world).1.
Proof.
  set (c := torch_onnx_export (VObj 2) (VObj 7) (VObj 8) onnx_path).
  set (e := mkExn "UnsupportedOperatorError" true "aten::foo").
  assert (Hin : Called c (inr e) ∈ log (run_pipeline unsupported_op_world).1).
  { vm_compute. in_list. }
  destruct (X6_export_after_save_and_eval unsupported_op_world c (inr e)
              Hin eq_refl)
    as (m & v1 & v2 & H1 & _ & _ & H2 & _).
  exists c, e, m, v2. split; [exact Hin|]. split; [reflexivity|].
  split; [exact H1 | exact H2].
Defined.

(** X7: when a fetch raises, nothing is saved: [save_pretrained] is not
    called at all, not even for a tokenizer that had been fetched before
    the model fetch failed. *)
Theorem X7_failed_fetch_saves_nothing w cls e :
  Called (from_pretrained cls model_name) (inr e) ∈ log (run_pipeline w).1 →
  calls_to "save_pretrained" (history (run_pipeline w).1) = []
  ∧ calls_to "torch.onnx.export" (history (run_pipeline w).1) = []
  ∧ calls_to "quantize_dynamic" (history (run_pipeline w).1) = [].
Proof.
  every_run w s res H; cbn; intros Hin;
    repeat (apply elem_of_cons in Hin as [Hin|Hin];
            [first [discriminate Hin | by repeat split]|]);
    by apply elem_of_nil in Hin.
Qed.

Lemma X7_failed_fetch_saves_nothing_witness :
  Called (from_pretrained "AutoModel" model_name) (inr ConnectionError)
    ∈ log (run_pipeline model_fetch_fails_world).1
  ∧ calls_to "save_pretrained" (history (run_pipeline model_fetch_fails_world).1)
    = [].
Proof.
  assert (Hin : Called (from_pretrained "AutoModel" model_name)
                       (inr ConnectionError)
                  ∈ log (run_pipeline model_fetch_fails_world).1).
  { vm_compute. in_list. }
  destruct (X7_failed_fetch_saves_nothing model_fetch_fails_world
              "AutoModel" ConnectionError Hin) as (H & _).
  split; [exact Hin | exact H].
Defined.

(** X8: the script never retries and never cleans up: in the log of the
    whole script at most one call raised, and no call at all follows it;
    what follows is only what the handler prints. *)
Theorem X8_no_call_after_a_raise w :
  calls_of (after_raise (log (final (run_script w)))) = []
  ∧ (length (raised_calls (log (final (run_script w)))) ≤ 1)%nat.
Proof.
  unfold run_script.
  every_run w s res H;
    first [ rewrite (main_on_success _ _ _ H)
          | rewrite (main_on_failure _ _ _ H);
            match goal with |- context [is_Exception ?e] =>
              destruct (is_Exception e) end ];
    cbn; split; first [reflexivity | lia].
Qed.
